(** * DiagnosticsView: the statement-diagnostics table of cluster-ui

    A shallow embedding of
    [pkg/ui/workspaces/cluster-ui/src/statementDetails/diagnostics/diagnosticsView.tsx].

    The component is a pure [render] from properties and local state to a
    tree of elements, plus event handlers.  A handler is a computation over
    the component's local state that records every call it makes to a
    function it was handed (callback properties, the modal ref) and every
    [setState]; calling [undefined] throws. *)

From Stdlib Require Import ZArith.
From stdpp Require Import base option list sorting strings pretty.

Local Open Scope string_scope.

(** ** Data *)

(** Modelled from the spec: the type [StatementDiagnosticsReport] is declared
    in [../../api].  A report has a server-assigned identifier, the owning
    statement's fingerprint, a completion flag, a request timestamp and a
    bundle identifier; the field names are the ones the view reads.  The two
    identifiers are held as integers and the request time in unix seconds. *)
Record StatementDiagnosticsReport := {
  id : Z;
  statement_fingerprint : string;
  completed : bool;
  statement_diagnostics_id : Z;
  requested_at : Z;
}.

(** The object literal [{ ...diagnosticsReport, key: idx }]: every property of
    the report, and [key]. *)
Record Row := {
  report : StatementDiagnosticsReport;
  key : nat;
}.

(** Modelled from the spec: [SortSetting] is declared in [src/sortedtable];
    it is the pair of a column title and a direction. *)
Record SortSetting := {
  ascending : bool;
  columnTitle : string;
}.

Record DiagnosticsViewState := {
  sortSetting : SortSetting;
}.

(** A function value handed to the component; the component can only call it. *)
Definition fnref := nat.

(** The values the component passes to the functions it calls.  An object is
    a report's properties, with the [key] property when it has one. *)
Inductive JsValue :=
| VUndefined
| VBoolean (b : bool)
| VNumber (n : Z)
| VString (s : string)
| VObject (r : StatementDiagnosticsReport) (k : option nat).

Definition object_of_report (r : StatementDiagnosticsReport) : JsValue :=
  VObject r None.

Definition object_of_row (d : Row) : JsValue :=
  VObject (report d) (Some (key d)).

(** [String(b)] on a boolean. *)
Definition String_of_boolean (b : bool) : string :=
  if b then "true" else "false".

(** An integer interpolated in a template literal: its decimal form. *)
Definition String_of_integer (n : Z) : string := pretty n.

(** ** Handlers *)

Inductive Effect :=
| Invoke (f : fnref) (args : list JsValue)
| SetState (s : DiagnosticsViewState).

Inductive Outcome (A : Type) :=
| Completed (a : A) (st : DiagnosticsViewState) (log : list Effect)
| Threw (log : list Effect).
Arguments Completed {A} a st log.
Arguments Threw {A} log.

Definition Eff (A : Type) : Type := DiagnosticsViewState → Outcome A.

#[export] Instance Eff_ret : MRet Eff := λ A a st, Completed a st [].

#[export] Instance Eff_bind : MBind Eff := λ A B k m st,
  match m st with
  | Completed a st' log =>
      match k a st' with
      | Completed b st'' log' => Completed b st'' (log ++ log')
      | Threw log' => Threw (log ++ log')
      end
  | Threw log => Threw log
  end.

(** [f(args)]: a TypeError when [f] is undefined. *)
Definition call (f : option fnref) (args : list JsValue) : Eff unit :=
  λ st, match f with
        | Some g => Completed tt st [Invoke g args]
        | None => Threw []
        end.

Definition setState (s : DiagnosticsViewState) : Eff unit :=
  λ _, Completed tt s [SetState s].

(** Truthiness of an optional function or object. *)
Definition truthy {A} (o : option A) : bool :=
  match o with Some _ => true | None => false end.

(** The calls of a log, in order. *)
Definition invocations (log : list Effect) : list (fnref * list JsValue) :=
  omap (λ e, match e with Invoke f args => Some (f, args) | SetState _ => None end) log.

Definition log_of {A} (o : Outcome A) : list Effect :=
  match o with Completed _ _ log => log | Threw log => log end.

(** ** What the module imports *)

(** Names the file imports and whose code lives elsewhere.  [TimeScale] is
    opaque to the view; [inWindow ts t] says that the instant [t] falls inside
    the window that [ts] implies. *)
Class Imports := {
  getBasePath : string;
  getDiagnosticsStatus : StatementDiagnosticsReport → string;
  format_DATE_FORMAT_24_UTC : Z → string;
  TimeScale : Type;
  TimeScaleOptions : Type;
  timeScale1hMinOptions : TimeScaleOptions;
  inWindow : TimeScale → Z → bool;
}.

(** Modelled from the spec: [filterByTimeScale] lives in [./diagnosticsUtils],
    whose source is not at hand.  It selects only the reports whose
    request timestamp falls inside the window implied by the time scale, and
    keeps their order. *)
Definition filterByTimeScale `{Imports}
    (diagnostics : list Row) (ts : TimeScale) : list Row :=
  filter (λ d, inWindow ts (requested_at (report d)) = true) diagnostics.

(** ** Properties *)

(** Modelled from the spec: [ActivateDiagnosticsModalRef] is declared in
    [src/statementsDiagnostics]; it is a handle exposing [showModalFor]. *)
Record ActivateDiagnosticsModalRef := {
  showModalFor : fnref;
}.

(** [React.RefObject]: [current] is null until the modal is mounted. *)
Record RefObject := {
  current : option ActivateDiagnosticsModalRef;
}.

Module Props.
Record DiagnosticsViewProps `{Imports} := {
  (* DiagnosticsViewStateProps *)
  hasData : bool;
  diagnosticsReports : list StatementDiagnosticsReport;
  showDiagnosticsViewLink : option bool;
  activateDiagnosticsRef : option RefObject;
  currentScale : TimeScale;
  (* DiagnosticsViewDispatchProps *)
  dismissAlertMessage : fnref;
  onDownloadDiagnosticBundleClick : option fnref;
  onDiagnosticCancelRequestClick : option fnref;
  onSortingChange : option fnref;
  onChangeTimeScale : fnref;
  (* DiagnosticsViewOwnProps *)
  statementFingerprint : option string;
}.
End Props.
Abbreviation DiagnosticsViewProps := Props.DiagnosticsViewProps.

(** ** Elements *)

(** [<Link component={NavButton} to=...>]. *)
Record LinkElement := {
  to : string;
  link_text : string;
}.

(** [<Button>] from [@cockroachlabs/ui-components], as the view uses it for
    its two "Activate" controls. *)
Record ButtonElement := {
  intent : string;
  disabled : bool;
  onClick : Eff unit;
  button_text : string;
}.

(** The control inside the [crl-statements-diagnostics-view__actions-column]
    wrapper of an Actions cell. *)
Inductive ActionControl :=
| DownloadBundle (href : string) (click : Eff unit)
    (* <Button as="a" size="small" intent="tertiary" href onClick> Bundle (.zip) *)
| CancelRequest (click : Eff unit).
    (* <CancelButton size="small" type="secondary" onClick> Cancel request *)

Inductive Cell :=
| CellText (s : string)
| CellStatusBadge (status : string) (enableTooltip : bool)
| CellActions (control : ActionControl).

(** [ColumnDescriptor<StatementDiagnosticsReport>], declared in
    [src/sortedtable]: the fields that [columns] fills in.  The table calls
    [cell] and [sort] on the elements of its [data], which are rows. *)
Record ColumnDescriptor := {
  name : string;
  title : string;
  hideTitleUnderline : bool;
  className : option string;
  cell : Row → Cell;
  sort : Row → JsValue;
}.

Section View.
Context `{Imports}.

Record TimeScaleDropdownElement := {
  options : TimeScaleOptions;
  dropdown_currentScale : TimeScale;
  setTimeScale : fnref;
  dropdown_className : list string;
}.

(** [<EmptyTable icon title footer>]: the footer holds the primary button
    and, when asked for, the link to the history page. *)
Record EmptyTableElement := {
  empty_title : string;
  empty_activate : ButtonElement;
  empty_link : option LinkElement;
}.

Record SortedTableElement := {
  data : list Row;
  table_columns : list ColumnDescriptor;
  table_sortSetting : SortSetting;
  onChangeSortSetting : SortSetting → Eff unit;
}.

(** The two fragments [render] can return. *)
Inductive Rendered :=
| EmptyState (dropdown : TimeScaleDropdownElement) (card : EmptyTableElement)
| Populated (dropdown : TimeScaleDropdownElement)
            (activate : option ButtonElement)
            (table : SortedTableElement)
            (footer : option LinkElement).

(** ** The component *)

(** [activateDiagnosticsRef?.current?.showModalFor(statementFingerprint)] *)
Definition showModal (props : DiagnosticsViewProps) : Eff unit :=
  match Props.activateDiagnosticsRef props with
  | None => mret tt
  | Some ref =>
      match current ref with
      | None => mret tt
      | Some modal =>
          call (Some (showModalFor modal))
               [match Props.statementFingerprint props with
                | Some fp => VString fp
                | None => VUndefined
                end]
      end
  end.

(** [showDiagnosticsViewLink && <Link ...>text</Link>] *)
Definition viewLink (props : DiagnosticsViewProps) (text : string)
    : option LinkElement :=
  match Props.showDiagnosticsViewLink props with
  | Some true =>
      Some {| to := "/reports/statements/diagnosticshistory"; link_text := text |}
  | _ => None
  end.

Definition EmptyDiagnosticsView (props : DiagnosticsViewProps)
    : EmptyTableElement :=
  {| empty_title := "Activate statement diagnostics";
     empty_activate :=
       {| intent := "primary";
          disabled := false;
          onClick := showModal props;
          button_text := "Activate Diagnostics" |};
     empty_link := viewLink props "View all statement diagnostics" |}.

(** The constructor's initial state. *)
Definition initialState : DiagnosticsViewState :=
  {| sortSetting := {| ascending := true; columnTitle := "activatedOn" |} |}.

(** The onClick of the download button. *)
Definition downloadClick (props : DiagnosticsViewProps) (diagnostic : Row)
    : Eff unit :=
  if truthy (Props.onDownloadDiagnosticBundleClick props)
  then call (Props.onDownloadDiagnosticBundleClick props)
            [VString (statement_fingerprint (report diagnostic))]
  else mret tt.

(** The onClick of the cancel button. *)
Definition cancelClick (props : DiagnosticsViewProps) (diagnostic : Row)
    : Eff unit :=
  if truthy (Props.onDiagnosticCancelRequestClick props)
  then call (Props.onDiagnosticCancelRequestClick props)
            [object_of_row diagnostic]
  else mret tt.

Definition activatedOnColumn : ColumnDescriptor :=
  {| name := "activatedOn";
     title := "Activated on";
     hideTitleUnderline := true;
     className := None;
     cell := λ diagnostic,
       CellText (format_DATE_FORMAT_24_UTC (requested_at (report diagnostic)));
     sort := λ diagnostic, VNumber (requested_at (report diagnostic)) |}.

Definition statusColumn : ColumnDescriptor :=
  {| name := "status";
     title := "Status";
     hideTitleUnderline := true;
     className := Some "column-size-small";
     cell := λ diagnostic,
       let status := getDiagnosticsStatus (report diagnostic) in
       CellStatusBadge status (negb (String.eqb status "READY"));
     sort := λ diagnostic,
       VString (String_of_boolean (completed (report diagnostic))) |}.

Definition actionsColumn (props : DiagnosticsViewProps) : ColumnDescriptor :=
  {| name := "actions";
     title := "";
     hideTitleUnderline := true;
     className := Some "column-size-medium";
     cell := λ diagnostic,
       if completed (report diagnostic)
       then CellActions
              (DownloadBundle
                 (getBasePath +:+ "/_admin/v1/stmtbundle/" +:+
                  String_of_integer (statement_diagnostics_id (report diagnostic)))
                 (downloadClick props diagnostic))
       else CellActions (CancelRequest (cancelClick props diagnostic));
     sort := λ diagnostic,
       VString (String_of_boolean (completed (report diagnostic))) |}.

Definition columns (props : DiagnosticsViewProps) : list ColumnDescriptor :=
  [activatedOnColumn; statusColumn; actionsColumn props].

Definition componentWillUnmount (props : DiagnosticsViewProps) : Eff unit :=
  call (Some (Props.dismissAlertMessage props)) [].

Definition onSortingChange (props : DiagnosticsViewProps) (ss : SortSetting)
    : Eff unit :=
  (if truthy (Props.onSortingChange props)
   then call (Props.onSortingChange props)
             [VString "Diagnostics"; VString (columnTitle ss); VBoolean (ascending ss)]
   else mret tt) ;;
  setState {| sortSetting := {| ascending := ascending ss;
                                columnTitle := columnTitle ss |} |}.

(** The locals of [render]. *)
Definition readyToRequestDiagnostics (props : DiagnosticsViewProps) : bool :=
  forallb (λ diagnostic, completed diagnostic) (Props.diagnosticsReports props).

Definition dataSource (props : DiagnosticsViewProps) : list Row :=
  filterByTimeScale
    (imap (λ idx diagnosticsReport, {| report := diagnosticsReport; key := idx |})
          (Props.diagnosticsReports props))
    (Props.currentScale props).

Definition timeScaleDropdown (props : DiagnosticsViewProps)
    (classes : list string) : TimeScaleDropdownElement :=
  {| options := timeScale1hMinOptions;
     dropdown_currentScale := Props.currentScale props;
     setTimeScale := Props.onChangeTimeScale props;
     dropdown_className := classes |}.

Definition render (props : DiagnosticsViewProps) (state : DiagnosticsViewState)
    : Rendered :=
  let readyToRequestDiagnostics := readyToRequestDiagnostics props in
  let dataSource := dataSource props in
  if negb (Props.hasData props) then
    EmptyState (timeScaleDropdown props ["timescale-small"; "margin-bottom"])
               (EmptyDiagnosticsView props)
  else
    Populated
      (timeScaleDropdown props ["timescale-small"])
      (if readyToRequestDiagnostics
       then Some {| intent := "secondary";
                    disabled := negb readyToRequestDiagnostics;
                    onClick := showModal props;
                    button_text := "Activate diagnostics" |}
       else None)
      {| data := dataSource;
         table_columns := columns props;
         table_sortSetting := sortSetting state;
         onChangeSortSetting := onSortingChange props |}
      (viewLink props "All statement diagnostics").

(** What a rendered fragment shows: the table, its rows, and the
    "Activate diagnostics" button of the header. *)
Definition rendered_table (r : Rendered) : option SortedTableElement :=
  match r with
  | Populated _ _ table _ => Some table
  | EmptyState _ _ => None
  end.

Definition rendered_rows (r : Rendered) : list Row :=
  match r with
  | Populated _ _ table _ => data table
  | EmptyState _ _ => []
  end.

Definition rendered_activate (r : Rendered) : option ButtonElement :=
  match r with
  | Populated _ activate _ _ => activate
  | EmptyState _ _ => None
  end.

(** The column of a given name. *)
Definition column (cols : list ColumnDescriptor) (n : string)
    : option ColumnDescriptor :=
  list_find (λ c, name c = n) cols ≫= λ found, Some found.2.

(** The same properties with another report list. *)
Definition with_reports (props : DiagnosticsViewProps)
    (reports : list StatementDiagnosticsReport) : DiagnosticsViewProps :=
  {| Props.hasData := Props.hasData props;
     Props.diagnosticsReports := reports;
     Props.showDiagnosticsViewLink := Props.showDiagnosticsViewLink props;
     Props.activateDiagnosticsRef := Props.activateDiagnosticsRef props;
     Props.currentScale := Props.currentScale props;
     Props.dismissAlertMessage := Props.dismissAlertMessage props;
     Props.onDownloadDiagnosticBundleClick :=
       Props.onDownloadDiagnosticBundleClick props;
     Props.onDiagnosticCancelRequestClick :=
       Props.onDiagnosticCancelRequestClick props;
     Props.onSortingChange := Props.onSortingChange props;
     Props.onChangeTimeScale := Props.onChangeTimeScale props;
     Props.statementFingerprint := Props.statementFingerprint props |}.


(** The link to the history page: the footer of the populated fragment, or
    the link of the empty-state card. *)
Definition rendered_link (r : Rendered) : option LinkElement :=
  match r with
  | Populated _ _ _ footer => footer
  | EmptyState _ card => empty_link card
  end.

(** The button that opens the activation modal, in either fragment. *)
Definition rendered_activation (r : Rendered) : option ButtonElement :=
  match r with
  | Populated _ activate _ _ => activate
  | EmptyState _ card => Some (empty_activate card)
  end.


(** ** Sessions *)

(** What a user can do to a mounted view: click the control in the Actions
    cell of a row, change the sort of the table, click the button that opens
    the activation modal. *)
Inductive Interaction :=
| ClickAction (diagnostic : Row)
| ChangeSort (ss : SortSetting)
| ClickActivate.

(** An interaction runs the handler that the current render attached to the
    control; on a control that is not rendered nothing happens. *)
Definition handle (props : DiagnosticsViewProps) (i : Interaction) : Eff unit :=
  λ state,
    let rendered := render props state in
    match i with
    | ClickAction diagnostic =>
        match rendered_table rendered ≫= λ table,
              column (table_columns table) "actions" with
        | Some actions =>
            match cell actions diagnostic with
            | CellActions (DownloadBundle _ click) => click state
            | CellActions (CancelRequest click) => click state
            | _ => Completed tt state []
            end
        | None => Completed tt state []
        end
    | ChangeSort ss =>
        match rendered_table rendered with
        | Some table => onChangeSortSetting table ss state
        | None => Completed tt state []
        end
    | ClickActivate =>
        match rendered_activation rendered with
        | Some button => onClick button state
        | None => Completed tt state []
        end
    end.

(** Successive interactions, each under the properties of its moment and in
    the state the previous one left. *)
Definition session (steps : list (DiagnosticsViewProps * Interaction))
    : Eff unit :=
  foldr (λ step rest, handle step.1 step.2 ;; rest) (mret tt) steps.

(** The sort setting a session leaves: that of its last sort change on a
    rendered table. *)
Definition lastSort (steps : list (DiagnosticsViewProps * Interaction))
    (current : SortSetting) : SortSetting :=
  foldl (λ acc step,
           match step.2 with
           | ChangeSort ss => if Props.hasData step.1 then ss else acc
           | _ => acc
           end) current steps.

(** The reading under which the cancel button of every pending row hands the
    callback one of the objects of the [diagnosticsReports] input itself. *)
Definition cancel_hands_over_input_object (props : DiagnosticsViewProps)
    (state : DiagnosticsViewState) : Prop :=
  ∀ d, d ∈ rendered_rows (render props state) →
    completed (report d) = false →
    ∃ click,
      cell (actionsColumn props) d = CellActions (CancelRequest click) ∧
      ∀ cb, Props.onDiagnosticCancelRequestClick props = Some cb →
        ∃ r, r ∈ Props.diagnosticsReports props ∧
             click state = Completed tt state [Invoke cb [object_of_report r]].

End View.

(** ** A concrete environment *)

(** An environment to run the component in: an empty base path, a status
    derived from the completion flag alone, and time scales given by the two
    ends of their window. *)
Definition example_imports : Imports :=
  {| getBasePath := "";
     getDiagnosticsStatus := λ r, if completed r then "READY" else "WAITING";
     format_DATE_FORMAT_24_UTC := pretty;
     TimeScale := Z * Z;
     TimeScaleOptions := unit;
     timeScale1hMinOptions := tt;
     inWindow := λ ts t, bool_decide (ts.1 ≤ t ≤ ts.2)%Z |}.

Definition example_window : @TimeScale example_imports := (100, 200)%Z.

Definition example_report (done : bool) (bundle at_ : Z)
    : StatementDiagnosticsReport :=
  {| id := bundle;
     statement_fingerprint := "SELECT _";
     completed := done;
     statement_diagnostics_id := bundle;
     requested_at := at_ |}.

(** A completed and a pending row, both first in their list. *)
Definition completed_row : Row :=
  {| report := example_report true 42 150; key := 0 |}.

Definition pending_row : Row :=
  {| report := example_report false 7 150; key := 0 |}.

(** Properties with every optional callback supplied and the modal mounted;
    the window is [[100, 200]]. *)
Definition example_props (has : bool)
    (reports : list StatementDiagnosticsReport)
    : @DiagnosticsViewProps example_imports :=
  {| Props.hasData := has;
     Props.diagnosticsReports := reports;
     Props.showDiagnosticsViewLink := Some true;
     Props.activateDiagnosticsRef :=
       Some {| current := Some {| showModalFor := 5 |} |};
     Props.currentScale := example_window;
     Props.dismissAlertMessage := 0;
     Props.onDownloadDiagnosticBundleClick := Some 1;
     Props.onDiagnosticCancelRequestClick := Some 2;
     Props.onSortingChange := Some 3;
     Props.onChangeTimeScale := 4;
     Props.statementFingerprint := Some "SELECT _" |}.

(** The same, with nothing optional supplied. *)
Definition bare_props (has : bool)
    (reports : list StatementDiagnosticsReport)
    : @DiagnosticsViewProps example_imports :=
  {| Props.hasData := has;
     Props.diagnosticsReports := reports;
     Props.showDiagnosticsViewLink := None;
     Props.activateDiagnosticsRef := None;
     Props.currentScale := example_window;
     Props.dismissAlertMessage := 0;
     Props.onDownloadDiagnosticBundleClick := None;
     Props.onDiagnosticCancelRequestClick := None;
     Props.onSortingChange := None;
     Props.onChangeTimeScale := 4;
     Props.statementFingerprint := None |}.


(** * Properties of the component *)

Section Properties.
Context `{Imports}.
Implicit Types (props : DiagnosticsViewProps) (state st : DiagnosticsViewState).
Implicit Types (diagnostic d : Row) (ss : SortSetting).

(** ** Lookups in the column table *)

Lemma column_activatedOn props :
  column (columns props) "activatedOn" = Some activatedOnColumn.
Proof. reflexivity. Qed.

Lemma column_status props :
  column (columns props) "status" = Some statusColumn.
Proof. reflexivity. Qed.

Lemma column_actions props :
  column (columns props) "actions" = Some (actionsColumn props).
Proof. reflexivity. Qed.

(** ** The rows handed to the table *)

Lemma sortSetting_eta ss :
  {| ascending := ascending ss; columnTitle := columnTitle ss |} = ss.
Proof. by destruct ss. Qed.

Lemma rendered_rows_populated props state :
  Props.hasData props = true →
  rendered_rows (render props state) = dataSource props.
Proof. intros Hdata. unfold render. by rewrite Hdata. Qed.

Lemma rendered_rows_empty props state :
  Props.hasData props = false → rendered_rows (render props state) = [].
Proof. intros Hdata. unfold render. by rewrite Hdata. Qed.

Lemma rendered_rows_dataSource props state d :
  d ∈ rendered_rows (render props state) → d ∈ dataSource props.
Proof.
  destruct (Props.hasData props) eqn:Hdata.
  - by rewrite rendered_rows_populated.
  - rewrite rendered_rows_empty by done. by intros ?%elem_of_nil.
Qed.

Lemma rendered_rows_sublist props state :
  rendered_rows (render props state) `sublist_of` dataSource props.
Proof.
  destruct (Props.hasData props) eqn:Hdata.
  - by rewrite rendered_rows_populated.
  - rewrite rendered_rows_empty by done. apply sublist_nil_l.
Qed.

Lemma filterByTimeScale_sublist (rows : list Row) (ts : TimeScale) :
  filterByTimeScale rows ts `sublist_of` rows.
Proof. apply sublist_filter. Qed.

Lemma filterByTimeScale_elem (rows : list Row) (ts : TimeScale) d :
  d ∈ filterByTimeScale rows ts ↔
  inWindow ts (requested_at (report d)) = true ∧ d ∈ rows.
Proof. unfold filterByTimeScale. by rewrite list_elem_of_filter. Qed.

Lemma keyed_reports (reports : list StatementDiagnosticsReport) :
  report <$> imap (λ idx r, {| report := r; key := idx |}) reports = reports.
Proof.
  apply list_eq. intros i.
  rewrite list_lookup_fmap, list_lookup_imap. by destruct (reports !! i).
Qed.

Lemma keyed_elem (reports : list StatementDiagnosticsReport) d :
  d ∈ imap (λ idx r, {| report := r; key := idx |}) reports ↔
  reports !! key d = Some (report d).
Proof.
  rewrite elem_of_lookup_imap. split.
  - by intros (i & r & -> & Hr).
  - intros Hd. exists (key d), (report d). by destruct d.
Qed.

Lemma dataSource_elem props d :
  d ∈ dataSource props ↔
  Props.diagnosticsReports props !! key d = Some (report d) ∧
  inWindow (Props.currentScale props) (requested_at (report d)) = true.
Proof.
  unfold dataSource. rewrite filterByTimeScale_elem, keyed_elem. tauto.
Qed.

(** ** The Actions cell *)

Lemma actions_cell props d :
  cell (actionsColumn props) d =
  if completed (report d)
  then CellActions
         (DownloadBundle
            (getBasePath +:+ "/_admin/v1/stmtbundle/" +:+
             String_of_integer (statement_diagnostics_id (report d)))
            (downloadClick props d))
  else CellActions (CancelRequest (cancelClick props d)).
Proof. reflexivity. Qed.

(** C1: for every completed report the Actions cell is a download control
    whose target is the base path, then "/_admin/v1/stmtbundle/", then the
    bundle identifier; for bundle identifier 42 it is
    {basePath}/_admin/v1/stmtbundle/42. *)
Theorem download_target_path props d :
  completed (report d) = true →
  ∃ actions click,
    column (columns props) "actions" = Some actions ∧
    cell actions d =
      CellActions
        (DownloadBundle
           (getBasePath +:+ "/_admin/v1/stmtbundle/" +:+
            String_of_integer (statement_diagnostics_id (report d)))
           click) ∧
    (statement_diagnostics_id (report d) = 42%Z →
     cell actions d =
       CellActions
         (DownloadBundle (getBasePath +:+ "/_admin/v1/stmtbundle/42") click)).
Proof.
  intros Hdone. exists (actionsColumn props), (downloadClick props d).
  split; [apply column_actions|].
  rewrite actions_cell, Hdone. split; [done|].
  by intros ->.
Qed.

(** C4, as the code has it: for every pending report shown, the Actions cell
    is a cancel control, and activating it calls the cancel callback, when
    there is one, once with the row object the cell was given: the properties
    of the input report at index [key], extended with [key]; that object is
    none of the input objects. *)
Theorem cancel_hands_over_row props state d :
  d ∈ rendered_rows (render props state) →
  completed (report d) = false →
  ∃ click,
    cell (actionsColumn props) d = CellActions (CancelRequest click) ∧
    Props.diagnosticsReports props !! key d = Some (report d) ∧
    (∀ cb st, Props.onDiagnosticCancelRequestClick props = Some cb →
       click st =
       Completed tt st [Invoke cb [VObject (report d) (Some (key d))]]) ∧
    (∀ r, VObject (report d) (Some (key d)) ≠ object_of_report r).
Proof.
  intros Hd%rendered_rows_dataSource Hpending.
  apply dataSource_elem in Hd as [Hlookup _].
  exists (cancelClick props d). rewrite actions_cell, Hpending.
  repeat split; [done| |done].
  intros cb st Hcb. unfold cancelClick. by rewrite Hcb.
Qed.

(** ** Sort keys *)

(** C8: the Status column sorts on the string form of the completion flag,
    whatever the derived status, and the Actions column sorts on the same
    value; two rows have the same key exactly when their flags agree. *)
Theorem status_and_actions_sort_key props d :
  ∃ status actions,
    column (columns props) "status" = Some status ∧
    column (columns props) "actions" = Some actions ∧
    sort status d = VString (String_of_boolean (completed (report d))) ∧
    sort actions d = sort status d ∧
    (∀ d', sort status d = sort status d' ↔
           completed (report d) = completed (report d')).
Proof.
  exists statusColumn, (actionsColumn props).
  repeat split; try done.
  - simpl. by destruct (completed (report d)), (completed (report d')).
  - simpl. by intros ->.
Qed.

(** ** Lifecycle and handlers *)

(** C6: unmounting calls [dismissAlertMessage] once, with no argument, and
    does nothing else, whatever the state. *)
Theorem unmount_dismisses_alert_once props st :
  componentWillUnmount props st =
    Completed tt st [Invoke (Props.dismissAlertMessage props) []] ∧
  invocations (log_of (componentWillUnmount props st)) =
    [(Props.dismissAlertMessage props, [])] ∧
  length (invocations (log_of (componentWillUnmount props st))) = 1.
Proof. done. Qed.

Lemma onSortingChange_supplied props ss st cb :
  Props.onSortingChange props = Some cb →
  onSortingChange props ss st =
    Completed tt {| sortSetting := ss |}
      [Invoke cb [VString "Diagnostics"; VString (columnTitle ss);
                  VBoolean (ascending ss)];
       SetState {| sortSetting := ss |}].
Proof.
  intros Hcb. unfold onSortingChange. rewrite Hcb.
  cbn. by rewrite sortSetting_eta.
Qed.

Lemma onSortingChange_absent props ss st :
  Props.onSortingChange props = None →
  onSortingChange props ss st =
    Completed tt {| sortSetting := ss |} [SetState {| sortSetting := ss |}].
Proof.
  intros Hcb. unfold onSortingChange. rewrite Hcb.
  cbn. by rewrite sortSetting_eta.
Qed.

Lemma rendered_table_populated props state table :
  rendered_table (render props state) = Some table →
  Props.hasData props = true ∧
  table = {| data := dataSource props;
             table_columns := columns props;
             table_sortSetting := sortSetting state;
             onChangeSortSetting := onSortingChange props |}.
Proof.
  unfold render. destruct (Props.hasData props); simpl; [|done].
  by intros [= <-].
Qed.

(** C5: a sort change on the table first calls the [onSortingChange]
    property with ("Diagnostics", column title, direction), then sets the
    local sort state to that title and direction, which the next render hands
    to the table; so for ("status", false). *)
Theorem sort_change_notifies_then_updates props state table ss cb :
  rendered_table (render props state) = Some table →
  Props.onSortingChange props = Some cb →
  onChangeSortSetting table ss state =
    Completed tt {| sortSetting := ss |}
      [Invoke cb [VString "Diagnostics"; VString (columnTitle ss);
                  VBoolean (ascending ss)];
       SetState {| sortSetting := ss |}] ∧
  table_sortSetting <$> rendered_table (render props {| sortSetting := ss |}) =
    Some ss ∧
  (ss = {| ascending := false; columnTitle := "status" |} →
   invocations (log_of (onChangeSortSetting table ss state)) =
     [(cb, [VString "Diagnostics"; VString "status"; VBoolean false])]).
Proof.
  intros [Hdata ->]%rendered_table_populated Hcb. simpl.
  rewrite (onSortingChange_supplied _ _ _ cb) by done.
  split; [done|]. split.
  - unfold render. by rewrite Hdata.
  - by intros ->.
Qed.

Lemma showModal_unmounted props st :
  (Props.activateDiagnosticsRef props = None ∨
   ∃ ref, Props.activateDiagnosticsRef props = Some ref ∧ current ref = None) →
  showModal props st = Completed tt st [].
Proof.
  unfold showModal. intros [->|(ref & -> & ->)]; done.
Qed.

(** C9: an interaction whose optional callback, or whose ref target, is
    absent completes without throwing and calls nothing: the download and
    cancel clicks and the activation click leave an empty log, the sort change
    only sets the local state. *)
Theorem absent_callbacks_are_noops props d ss st :
  (Props.onDownloadDiagnosticBundleClick props = None →
   ∀ href click,
     cell (actionsColumn props) d = CellActions (DownloadBundle href click) →
     click st = Completed tt st []) ∧
  (Props.onDiagnosticCancelRequestClick props = None →
   ∀ click,
     cell (actionsColumn props) d = CellActions (CancelRequest click) →
     click st = Completed tt st []) ∧
  (Props.onSortingChange props = None →
   onSortingChange props ss st =
     Completed tt {| sortSetting := ss |} [SetState {| sortSetting := ss |}] ∧
   invocations (log_of (onSortingChange props ss st)) = []) ∧
  ((Props.activateDiagnosticsRef props = None ∨
    ∃ ref, Props.activateDiagnosticsRef props = Some ref ∧ current ref = None) →
   onClick (empty_activate (EmptyDiagnosticsView props)) st = Completed tt st [] ∧
   ∀ state button,
     rendered_activate (render props state) = Some button →
     onClick button st = Completed tt st []).
Proof.
  repeat split.
  - intros Hcb href click. rewrite actions_cell.
    destruct (completed (report d)); [|done].
    intros [= _ <-]. unfold downloadClick. by rewrite Hcb.
  - intros Hcb click. rewrite actions_cell.
    destruct (completed (report d)); [done|].
    intros [= <-]. unfold cancelClick. by rewrite Hcb.
  - by apply onSortingChange_absent.
  - by rewrite onSortingChange_absent.
  - by apply showModal_unmounted.
  - intros state button. unfold render.
    destruct (Props.hasData props); simpl; [|done].
    destruct (readyToRequestDiagnostics props); [|done].
    intros [= <-]. by apply showModal_unmounted.
Qed.

(** ** Rendering *)

Lemma readyToRequestDiagnostics_Forall props :
  readyToRequestDiagnostics props = true ↔
  Forall (λ r, completed r = true) (Props.diagnosticsReports props).
Proof.
  unfold readyToRequestDiagnostics.
  induction (Props.diagnosticsReports props) as [|r reports IH]; simpl.
  - split; [constructor|done].
  - rewrite andb_true_iff, Forall_cons. by rewrite IH.
Qed.

Lemma readyToRequestDiagnostics_Exists props :
  readyToRequestDiagnostics props = false ↔
  Exists (λ r, completed r = false) (Props.diagnosticsReports props).
Proof.
  unfold readyToRequestDiagnostics.
  induction (Props.diagnosticsReports props) as [|r reports IH]; simpl.
  - split; [done|by intros ?%Exists_nil].
  - rewrite andb_false_iff, Exists_cons. by rewrite IH.
Qed.

(** C2: the predicate is true exactly when every report of the whole,
    unfiltered list is completed (so for the empty list) and false exactly
    when some report is pending; in the populated view the "Activate
    diagnostics" button is rendered exactly when the predicate holds, and is
    then enabled. *)
Theorem ready_to_request_gates_activation props state :
  (readyToRequestDiagnostics props = true ↔
   Forall (λ r, completed r = true) (Props.diagnosticsReports props)) ∧
  (readyToRequestDiagnostics props = false ↔
   Exists (λ r, completed r = false) (Props.diagnosticsReports props)) ∧
  readyToRequestDiagnostics (with_reports props []) = true ∧
  (Props.hasData props = true →
   (is_Some (rendered_activate (render props state)) ↔
    readyToRequestDiagnostics props = true) ∧
   ∀ button,
     rendered_activate (render props state) = Some button →
     disabled button = false ∧ onClick button = showModal props).
Proof.
  split; [apply readyToRequestDiagnostics_Forall|].
  split; [apply readyToRequestDiagnostics_Exists|].
  split; [done|].
  intros Hdata. unfold render. rewrite Hdata. simpl.
  destruct (readyToRequestDiagnostics props); simpl.
  - split; [by split; eauto|]. by intros button [= <-].
  - split; [|done]. split; [by intros [??]|done].
Qed.

(** C7: without data, [render] returns the empty-state fragment and no
    table, and the result is the same for every report list. *)
Theorem no_data_renders_empty_state props state :
  Props.hasData props = false →
  render props state =
    EmptyState (timeScaleDropdown props ["timescale-small"; "margin-bottom"])
               (EmptyDiagnosticsView props) ∧
  rendered_table (render props state) = None ∧
  ∀ reports, render (with_reports props reports) state = render props state.
Proof.
  intros Hdata. unfold render. simpl. rewrite Hdata. simpl.
  repeat split.
Qed.

(** C3: for every report list and time scale, the reports of the rows handed
    to the table are, in order, a sub-sequence of the [diagnosticsReports]
    property; each is a report of the input whose request timestamp is inside
    the window of the current time scale; and the rows are computed from the
    properties alone, whatever the local state. *)
Theorem rendered_rows_are_a_time_filtered_view props state :
  (∀ rows ts, filterByTimeScale rows ts `sublist_of` rows) ∧
  report <$> rendered_rows (render props state)
    `sublist_of` Props.diagnosticsReports props ∧
  (∀ d, d ∈ rendered_rows (render props state) →
     report d ∈ Props.diagnosticsReports props ∧
     inWindow (Props.currentScale props) (requested_at (report d)) = true) ∧
  (∀ state', rendered_rows (render props state') =
             rendered_rows (render props state)).
Proof.
  split; [apply filterByTimeScale_sublist|]. split; [|split].
  - trans (report <$> imap (λ idx r, {| report := r; key := idx |})
                          (Props.diagnosticsReports props)).
    + apply fmap_sublist. etrans; [apply rendered_rows_sublist|].
      apply filterByTimeScale_sublist.
    + by rewrite keyed_reports.
  - intros d [Hlookup Hwindow]%rendered_rows_dataSource%dataSource_elem.
    split; [|done]. by eapply list_elem_of_lookup_2.
  - intros state'. unfold render. by destruct (Props.hasData props).
Qed.

(** C10: the key of every row of the data source is the index of its report
    in the whole [diagnosticsReports] list, and the row carries that report's
    properties unchanged; a report at index [i] is in the data source exactly
    when it is inside the window, so the keys shown can skip values. *)
Theorem row_key_is_index_in_unfiltered_list props :
  (∀ d, d ∈ dataSource props →
     Props.diagnosticsReports props !! key d = Some (report d) ∧
     object_of_row d = VObject (report d) (Some (key d))) ∧
  (∀ i r, Props.diagnosticsReports props !! i = Some r →
     ({| report := r; key := i |} ∈ dataSource props ↔
      inWindow (Props.currentScale props) (requested_at r) = true)) ∧
  (∀ state, Props.hasData props = true →
     rendered_rows (render props state) = dataSource props) ∧
  key <$> dataSource
            (example_props true
               [example_report true 42 150; example_report false 43 50;
                example_report false 44 160]) = [0; 2].
Proof.
  split; [|split; [|split]].
  - by intros d [Hlookup _]%dataSource_elem.
  - intros i r Hr. rewrite dataSource_elem. simpl. tauto.
  - intros state Hdata. by apply rendered_rows_populated.
  - by vm_compute.
Qed.

(** ** Every handler completes *)

Lemma state_eta st : {| sortSetting := sortSetting st |} = st.
Proof. by destruct st. Qed.

Lemma downloadClick_completes props d st :
  ∃ log, downloadClick props d st = Completed tt st log.
Proof.
  unfold downloadClick.
  destruct (Props.onDownloadDiagnosticBundleClick props); simpl; eauto.
Qed.

Lemma cancelClick_completes props d st :
  ∃ log, cancelClick props d st = Completed tt st log.
Proof.
  unfold cancelClick.
  destruct (Props.onDiagnosticCancelRequestClick props); simpl; eauto.
Qed.

Lemma showModal_completes props st :
  ∃ log, showModal props st = Completed tt st log.
Proof.
  unfold showModal.
  destruct (Props.activateDiagnosticsRef props) as [[[modal|]]|]; simpl; eauto.
Qed.

Lemma onSortingChange_completes props ss st :
  ∃ log, onSortingChange props ss st = Completed tt {| sortSetting := ss |} log.
Proof.
  destruct (Props.onSortingChange props) as [cb|] eqn:Hcb.
  - rewrite (onSortingChange_supplied _ _ _ cb) by done. eauto.
  - rewrite onSortingChange_absent by done. eauto.
Qed.

Lemma handle_completes props i st :
  ∃ log,
    handle props i st =
    Completed tt {| sortSetting := lastSort [(props, i)] (sortSetting st) |} log.
Proof.
  unfold handle, render.
  destruct i as [d|ss|]; destruct (Props.hasData props) eqn:Hdata;
    simpl; rewrite ?Hdata, ?state_eta; eauto.
  - destruct (completed (report d));
      [apply downloadClick_completes|apply cancelClick_completes].
  - apply onSortingChange_completes.
  - destruct (readyToRequestDiagnostics props); simpl; eauto.
    apply showModal_completes.
  - apply showModal_completes.
Qed.

Lemma session_completes steps st :
  ∃ log,
    session steps st =
    Completed tt {| sortSetting := lastSort steps (sortSetting st) |} log.
Proof.
  revert st. induction steps as [|[props i] steps IH]; intros st.
  - exists []. simpl. by rewrite state_eta.
  - destruct (handle_completes props i st) as [log Hstep].
    destruct (IH {| sortSetting := lastSort [(props, i)] (sortSetting st) |})
      as [log' Hrest].
    exists (log ++ log')%list.
    change (session ((props, i) :: steps))
      with (handle props i ;; session steps).
    unfold mbind, Eff_bind. rewrite Hstep, Hrest. done.
Qed.

(** X1: whatever the properties at each step, any sequence of interactions
    completes without throwing, and unmounting afterwards completes too, with
    the call to [dismissAlertMessage] as the last effect. *)
Theorem session_never_throws steps props st :
  ∃ st' log,
    session steps st = Completed tt st' log ∧
    (session steps ;; componentWillUnmount props) st =
      Completed tt st' (log ++ [Invoke (Props.dismissAlertMessage props) []]).
Proof.
  destruct (session_completes steps st) as [log Hsession].
  eexists _, log. split; [done|].
  unfold mbind, Eff_bind. by rewrite Hsession.
Qed.

(** X2: after a session the local sort setting is the one of the last sort
    change made while the table was rendered, and the one before the session
    when there was none: no other interaction writes the state. *)
Theorem session_keeps_last_sort steps st :
  ∃ log,
    session steps st =
      Completed tt {| sortSetting := lastSort steps (sortSetting st) |} log ∧
    (Forall (λ step, ∀ ss, step.2 ≠ ChangeSort ss) steps →
     session steps st = Completed tt st log) ∧
    (∀ props ss,
       Props.hasData props = true →
       lastSort (steps ++ [(props, ChangeSort ss)]) (sortSetting st) = ss).
Proof.
  destruct (session_completes steps st) as [log Hsession].
  exists log. split; [done|]. split.
  - intros Hnone. rewrite Hsession. f_equal.
    rewrite <- (state_eta st) at 2. f_equal.
    clear Hsession. generalize (sortSetting st) as current.
    induction Hnone as [|[props i] steps Hi _ IH]; intros current; [done|].
    simpl. destruct i as [d|ss|]; try apply IH. by destruct (Hi ss).
  - intros props ss Hdata. unfold lastSort. rewrite foldl_app. simpl.
    by rewrite Hdata.
Qed.

(** X3: with the [onSortingChange] property supplied and the table rendered,
    successive sort changes notify the parent once each, in order and with
    the label "Diagnostics", repeated settings included. *)
Theorem sort_changes_notify_in_order props (changes : list SortSetting) st cb :
  Props.hasData props = true →
  Props.onSortingChange props = Some cb →
  invocations
    (log_of (session ((λ ss, (props, ChangeSort ss)) <$> changes) st)) =
  (λ ss, (cb, [VString "Diagnostics"; VString (columnTitle ss);
               VBoolean (ascending ss)])) <$> changes.
Proof.
  intros Hdata Hcb. revert st.
  induction changes as [|ss changes IH]; intros st; [done|].
  rewrite !fmap_cons.
  change (session ((props, ChangeSort ss) ::
                   ((λ ss, (props, ChangeSort ss)) <$> changes)))
    with (handle props (ChangeSort ss) ;;
          session ((λ ss, (props, ChangeSort ss)) <$> changes)).
  unfold mbind, Eff_bind.
  assert (handle props (ChangeSort ss) st =
          onSortingChange props ss st) as ->.
  { unfold handle, render. by rewrite Hdata. }
  rewrite (onSortingChange_supplied _ _ _ cb) by done.
  specialize (IH {| sortSetting := ss |}).
  destruct (session_completes ((λ ss, (props, ChangeSort ss)) <$> changes)
              {| sortSetting := ss |}) as [log Hrest].
  rewrite Hrest in IH |- *. simpl in IH |- *. by rewrite IH.
Qed.

(** ** The controls, one by one *)

(** X4: the control of an Actions cell is the download link exactly for a
    completed report and the cancel button exactly for a pending one. *)
Theorem actions_control_follows_completion props d :
  (completed (report d) = true ↔
   ∃ href click,
     cell (actionsColumn props) d = CellActions (DownloadBundle href click)) ∧
  (completed (report d) = false ↔
   ∃ click, cell (actionsColumn props) d = CellActions (CancelRequest click)).
Proof.
  rewrite actions_cell. destruct (completed (report d)); split; split.
  all: try done; try by eauto.
  - by intros (click & [=]).
  - by intros (href & click & [=]).
Qed.

(** X5: clicking the download link calls [onDownloadDiagnosticBundleClick],
    when supplied, once and with the statement fingerprint of the row's
    report as its only argument; the local state is left as it was. *)
Theorem download_click_reports_fingerprint props d href click cb st :
  cell (actionsColumn props) d = CellActions (DownloadBundle href click) →
  Props.onDownloadDiagnosticBundleClick props = Some cb →
  click st =
  Completed tt st [Invoke cb [VString (statement_fingerprint (report d))]].
Proof.
  rewrite actions_cell. destruct (completed (report d)); [|done].
  intros [= _ <-] Hcb. unfold downloadClick. by rewrite Hcb.
Qed.

(** X6: two download links have the same target exactly when their reports
    have the same bundle identifier. *)
Theorem download_targets_distinct props d1 d2 href1 click1 href2 click2 :
  cell (actionsColumn props) d1 = CellActions (DownloadBundle href1 click1) →
  cell (actionsColumn props) d2 = CellActions (DownloadBundle href2 click2) →
  (href1 = href2 ↔
   statement_diagnostics_id (report d1) = statement_diagnostics_id (report d2)).
Proof.
  rewrite !actions_cell.
  destruct (completed (report d1)); [|done].
  destruct (completed (report d2)); [|done].
  intros [= <- _] [= <- _]. split.
  - intros Heq. do 2 apply String.app_inj in Heq.
    by apply (inj pretty) in Heq.
  - by intros ->.
Qed.

(** X7: whichever button opens the activation modal, with the modal mounted
    a click calls its [showModalFor] once, with the statement fingerprint, or
    with undefined when the view has none, and leaves the local state. *)
Theorem activate_click_opens_modal props state ref modal button st :
  Props.activateDiagnosticsRef props = Some ref →
  current ref = Some modal →
  rendered_activation (render props state) = Some button →
  onClick button st =
  Completed tt st
    [Invoke (showModalFor modal)
       [match Props.statementFingerprint props with
        | Some fp => VString fp
        | None => VUndefined
        end]].
Proof.
  intros Href Hmodal. unfold render.
  assert (showModal props st =
          Completed tt st
            [Invoke (showModalFor modal)
               [match Props.statementFingerprint props with
                | Some fp => VString fp
                | None => VUndefined
                end]]) as Hshow.
  { unfold showModal. by rewrite Href, Hmodal. }
  destruct (Props.hasData props); simpl.
  - destruct (readyToRequestDiagnostics props); [|done]. by intros [= <-].
  - by intros [= <-].
Qed.

(** X8: the status cell is the badge of the status derived from the report,
    and its tooltip is enabled exactly when that status is not "READY". *)
Theorem status_badge_tooltip props d :
  ∃ status tooltip,
    column (columns props) "status" = Some status ∧
    cell status d =
      CellStatusBadge (getDiagnosticsStatus (report d)) tooltip ∧
    (tooltip = true ↔ getDiagnosticsStatus (report d) ≠ "READY").
Proof.
  exists statusColumn, (negb (String.eqb (getDiagnosticsStatus (report d)) "READY")).
  split; [done|]. split; [done|].
  rewrite negb_true_iff. apply String.eqb_neq.
Qed.

(** ** The fragments *)

(** X9: the link to the history page is rendered, in either fragment,
    exactly when [showDiagnosticsViewLink] is true (not when it is false or
    left out), and it always leads to the same page. *)
Theorem history_link_follows_flag props state :
  (is_Some (rendered_link (render props state)) ↔
   Props.showDiagnosticsViewLink props = Some true) ∧
  (∀ link, rendered_link (render props state) = Some link →
     to link = "/reports/statements/diagnosticshistory").
Proof.
  unfold render.
  destruct (Props.hasData props); simpl; unfold viewLink;
    destruct (Props.showDiagnosticsViewLink props) as [[]|]; simpl;
    (split; [split; [by intros [??]|by eauto]|by intros link [= <-]]).
Qed.

(** X10: the table is rendered exactly when [hasData] is true; with
    [hasData] true and no report at all it is rendered without rows, below
    an "Activate diagnostics" button. *)
Theorem table_rendered_iff_hasData props state :
  (is_Some (rendered_table (render props state)) ↔
   Props.hasData props = true) ∧
  (∀ table, rendered_table (render props state) = Some table →
     table_columns table = columns props ∧
     table_sortSetting table = sortSetting state) ∧
  (Props.hasData props = true →
   Props.diagnosticsReports props = [] →
   rendered_rows (render props state) = [] ∧
   is_Some (rendered_activate (render props state))).
Proof.
  split; [|split].
  - unfold render. destruct (Props.hasData props); simpl.
    + split; eauto.
    + split; [by intros [??]|done].
  - by intros table [_ ->]%rendered_table_populated.
  - intros Hdata Hnone. unfold render, dataSource, readyToRequestDiagnostics.
    rewrite Hdata, Hnone. simpl. split; eauto.
Qed.



(** ** Row keys *)

Lemma keyed_keys (reports : list StatementDiagnosticsReport) :
  key <$> imap (λ idx r, {| report := r; key := idx |}) reports =
  seq 0 (length reports).
Proof.
  apply list_eq. intros i.
  rewrite list_lookup_fmap, list_lookup_imap.
  destruct (reports !! i) as [r|] eqn:Hi; simpl.
  - apply lookup_lt_Some in Hi. by rewrite lookup_seq_lt.
  - apply lookup_ge_None in Hi. symmetry. by apply lookup_seq_ge.
Qed.

Lemma StronglySorted_lt_seq j n : StronglySorted lt (seq j n).
Proof.
  revert j. induction n as [|n IH]; intros j; simpl; constructor; [done|].
  apply Forall_seq. lia.
Qed.

Lemma StronglySorted_sublist {A} (R : relation A) (l1 l2 : list A) :
  l1 `sublist_of` l2 → StronglySorted R l2 → StronglySorted R l1.
Proof.
  induction 1 as [|x l1 l2 Hsub IH|x l1 l2 Hsub IH]; intros Hsorted.
  - constructor.
  - apply StronglySorted_inv in Hsorted as [Hsorted Hx].
    constructor; [by apply IH|].
    rewrite Forall_forall in Hx |- *.
    intros y Hy. apply Hx. by eapply elem_of_sublist.
  - apply StronglySorted_inv in Hsorted as [Hsorted _]. by apply IH.
Qed.

Lemma dataSource_keys_sublist props :
  key <$> dataSource props
    `sublist_of` seq 0 (length (Props.diagnosticsReports props)).
Proof.
  rewrite <- keyed_keys. apply fmap_sublist, filterByTimeScale_sublist.
Qed.

(** X13: whatever the time scale keeps, the keys of the rows handed to the
    table are strictly increasing, so pairwise distinct, and each is below
    the number of reports; there are no more rows than reports. *)
Theorem row_keys_increase props state :
  StronglySorted lt (key <$> rendered_rows (render props state)) ∧
  NoDup (key <$> rendered_rows (render props state)) ∧
  Forall (λ k, k < length (Props.diagnosticsReports props))
         (key <$> rendered_rows (render props state)) ∧
  (length (rendered_rows (render props state))
     ≤ length (Props.diagnosticsReports props))%nat.
Proof.
  assert (key <$> rendered_rows (render props state)
            `sublist_of` seq 0 (length (Props.diagnosticsReports props)))
    as Hsub.
  { etrans; [|apply dataSource_keys_sublist].
    apply fmap_sublist, rendered_rows_sublist. }
  split; [|split; [|split]].
  - eapply StronglySorted_sublist; [done|]. apply StronglySorted_lt_seq.
  - eapply sublist_NoDup; [apply NoDup_seq|done].
  - rewrite Forall_forall. intros k Hk.
    eapply elem_of_sublist in Hk; [|done].
    apply elem_of_seq in Hk. lia.
  - apply sublist_length in Hsub.
    by rewrite length_fmap, length_seq in Hsub.
Qed.

End Properties.

(** * The component at work *)

(** C4, as stated, fails: with one pending report inside the window, the
    object the cancel button hands to the callback has a [key] property, so
    it is not the object of the input list. *)
Lemma cancel_does_not_hand_over_input_object :
  ¬ cancel_hands_over_input_object
      (example_props true [example_report false 7 150]) initialState.
Proof.
  intros Hclaim.
  destruct (Hclaim {| report := example_report false 7 150; key := 0 |})
    as (click & Hcell & Hcall).
  - vm_compute. apply list_elem_of_here.
  - done.
  - injection Hcell as <-.
    destruct (Hcall 2 eq_refl) as (r & _ & Hlog).
    vm_compute in Hlog. discriminate Hlog.
Qed.

(** ** The theorems on concrete properties *)

Lemma download_target_path_witness :
  ∃ click,
    cell (actionsColumn (example_props true [example_report true 42 150]))
         completed_row =
    CellActions (DownloadBundle "/_admin/v1/stmtbundle/42" click).
Proof.
  destruct (download_target_path
              (example_props true [example_report true 42 150])
              completed_row eq_refl)
    as (actions & click & Hcolumn & _ & Hpath).
  exists click. injection Hcolumn as <-. exact (Hpath eq_refl).
Defined.

Lemma ready_to_request_gates_activation_witness :
  is_Some (rendered_activate
             (render (example_props true [example_report true 42 150])
                     initialState)) ∧
  rendered_activate
    (render (example_props true [example_report false 7 150]) initialState) =
  None.
Proof.
  split.
  - apply (proj1 (proj2 (proj2 (proj2
             (ready_to_request_gates_activation
                (example_props true [example_report true 42 150])
                initialState))) eq_refl)).
    reflexivity.
  - destruct (proj1 (proj2 (proj2 (proj2
                (ready_to_request_gates_activation
                   (example_props true [example_report false 7 150])
                   initialState))) eq_refl)) as [Hshown _].
    destruct (rendered_activate _) as [button|]; [|reflexivity].
    discriminate (Hshown (ex_intro _ button eq_refl)).
Defined.

Lemma rendered_rows_are_a_time_filtered_view_witness :
  example_report false 7 150 ∈
    [example_report true 42 50; example_report false 7 150] ∧
  inWindow example_window 150 = true.
Proof.
  apply (proj1 (proj2 (proj2
           (rendered_rows_are_a_time_filtered_view
              (example_props true
                 [example_report true 42 50; example_report false 7 150])
              initialState)))
           {| report := example_report false 7 150; key := 1 |}).
  vm_compute. apply list_elem_of_here.
Defined.

Lemma cancel_hands_over_row_witness :
  ∃ click,
    cell (actionsColumn (example_props true [example_report false 7 150]))
         pending_row = CellActions (CancelRequest click) ∧
    click initialState =
    Completed tt initialState
      [Invoke 2 [VObject (example_report false 7 150) (Some 0)]].
Proof.
  destruct (cancel_hands_over_row
              (example_props true [example_report false 7 150])
              initialState pending_row)
    as (click & Hcell & _ & Hcall & _).
  - vm_compute. apply list_elem_of_here.
  - reflexivity.
  - exists click. split; [exact Hcell|]. exact (Hcall 2 initialState eq_refl).
Defined.

Lemma sort_change_notifies_then_updates_witness :
  onSortingChange (example_props true [])
    {| ascending := false; columnTitle := "status" |} initialState =
  Completed tt
    {| sortSetting := {| ascending := false; columnTitle := "status" |} |}
    [Invoke 3 [VString "Diagnostics"; VString "status"; VBoolean false];
     SetState
       {| sortSetting := {| ascending := false; columnTitle := "status" |} |}].
Proof.
  exact (proj1 (sort_change_notifies_then_updates
                  (example_props true []) initialState _
                  {| ascending := false; columnTitle := "status" |} 3
                  eq_refl eq_refl)).
Defined.

Lemma no_data_renders_empty_state_witness :
  rendered_table
    (render (example_props false [example_report true 42 150]) initialState) =
  None.
Proof.
  exact (proj1 (proj2 (no_data_renders_empty_state
                         (example_props false [example_report true 42 150])
                         initialState eq_refl))).
Defined.

Lemma absent_callbacks_are_noops_witness :
  downloadClick (bare_props true []) completed_row initialState =
    Completed tt initialState [] ∧
  cancelClick (bare_props true []) pending_row initialState =
    Completed tt initialState [] ∧
  invocations
    (log_of (onSortingChange (bare_props true [])
               {| ascending := false; columnTitle := "status" |} initialState)) =
    [] ∧
  showModal (bare_props true []) initialState = Completed tt initialState [].
Proof.
  split; [|split; [|split]].
  - exact (proj1 (absent_callbacks_are_noops
                    (bare_props true []) completed_row
                    {| ascending := false; columnTitle := "status" |}
                    initialState)
             eq_refl _ _ eq_refl).
  - exact (proj1 (proj2 (absent_callbacks_are_noops
                           (bare_props true []) pending_row
                           {| ascending := false; columnTitle := "status" |}
                           initialState))
             eq_refl _ eq_refl).
  - exact (proj2 (proj1 (proj2 (proj2 (absent_callbacks_are_noops
                           (bare_props true []) pending_row
                           {| ascending := false; columnTitle := "status" |}
                           initialState)))
             eq_refl)).
  - exact (proj1 (proj2 (proj2 (proj2 (absent_callbacks_are_noops
                           (bare_props true []) pending_row
                           {| ascending := false; columnTitle := "status" |}
                           initialState)))
             (or_introl eq_refl))).
Defined.

Lemma row_key_is_index_in_unfiltered_list_witness :
  {| report := example_report false 44 160; key := 2 |} ∈
  dataSource
    (example_props true
       [example_report true 42 150; example_report false 43 50;
        example_report false 44 160]).
Proof.
  apply (proj2 (proj1 (proj2 (row_key_is_index_in_unfiltered_list
                  (example_props true
                     [example_report true 42 150; example_report false 43 50;
                      example_report false 44 160])))
           2 (example_report false 44 160) eq_refl)).
  reflexivity.
Defined.

Lemma session_keeps_last_sort_witness :
  lastSort
    [(example_props true [], ClickActivate);
     (example_props true [],
      ChangeSort {| ascending := false; columnTitle := "status" |})]
    (sortSetting initialState) =
  {| ascending := false; columnTitle := "status" |}.
Proof.
  destruct (session_keeps_last_sort
              [(example_props true [], ClickActivate)] initialState)
    as (log & _ & _ & Hlast).
  exact (Hlast (example_props true [])
               {| ascending := false; columnTitle := "status" |} eq_refl).
Defined.

Lemma sort_changes_notify_in_order_witness :
  invocations
    (log_of
       (session
          [(example_props true [],
            ChangeSort {| ascending := false; columnTitle := "status" |});
           (example_props true [],
            ChangeSort {| ascending := false; columnTitle := "status" |});
           (example_props true [],
            ChangeSort {| ascending := true; columnTitle := "activatedOn" |})]
          initialState)) =
  [(3, [VString "Diagnostics"; VString "status"; VBoolean false]);
   (3, [VString "Diagnostics"; VString "status"; VBoolean false]);
   (3, [VString "Diagnostics"; VString "activatedOn"; VBoolean true])].
Proof.
  exact (sort_changes_notify_in_order
           (example_props true [])
           [{| ascending := false; columnTitle := "status" |};
            {| ascending := false; columnTitle := "status" |};
            {| ascending := true; columnTitle := "activatedOn" |}]
           initialState 3 eq_refl eq_refl).
Defined.

Lemma download_click_reports_fingerprint_witness :
  downloadClick (example_props true [example_report true 42 150])
                completed_row initialState =
  Completed tt initialState [Invoke 1 [VString "SELECT _"]].
Proof.
  exact (download_click_reports_fingerprint
           (example_props true [example_report true 42 150])
           completed_row _ _ 1 initialState eq_refl eq_refl).
Defined.

Lemma download_targets_distinct_witness :
  "/_admin/v1/stmtbundle/42" = "/_admin/v1/stmtbundle/43" ↔ 42%Z = 43%Z.
Proof.
  exact (download_targets_distinct
           (example_props true [])
           completed_row
           {| report := example_report true 43 150; key := 1 |}
           _ _ _ _ eq_refl eq_refl).
Defined.

Lemma activate_click_opens_modal_witness :
  showModal (example_props false []) initialState =
  Completed tt initialState [Invoke 5 [VString "SELECT _"]].
Proof.
  exact (activate_click_opens_modal
           (example_props false []) initialState
           {| current := Some {| showModalFor := 5 |} |}
           {| showModalFor := 5 |} _ initialState
           eq_refl eq_refl eq_refl).
Defined.

Lemma table_rendered_iff_hasData_witness :
  rendered_rows (render (example_props true []) initialState) = [] ∧
  is_Some (rendered_activate (render (example_props true []) initialState)).
Proof.
  exact (proj2 (proj2 (table_rendered_iff_hasData
                         (example_props true []) initialState))
           eq_refl eq_refl).
Defined.
